(** * Chicago crime dashboard: the filter-and-aggregate pipeline of
      [dashboard/app.py]

    The script loads one table, reads two widgets (a year range and a crime
    type) and derives four views from the filtered table.  The table is a
    list of rows, a pandas column ([df["Year"]]) is the list of that field's
    cells, a boolean mask is a list of booleans, and a missing cell (NaN) is
    [None].  The pandas operations the script calls are written out as list
    functions under their pandas names. *)

From Stdlib Require Import ZArith QArith.
From stdpp Require Import list sorting strings gmap.

Local Open Scope string_scope.
Local Open Scope Z_scope.

(** ** Data model *)

(** One row of the CSV file.  [Year] is an integer column; [Primary Type]
    is a string column and the two coordinates are float columns, each of
    which may hold a missing cell.  The remaining columns are carried along
    unread. *)
Record Row : Type := mkRow {
  Year : Z;
  Primary_Type : option string;
  Latitude : option Q;
  Longitude : option Q;
  Other : list string
}.

Definition DataFrame : Type := list Row.

(** [df[name]]: one column of the table. *)
Definition column {A : Type} (field : Row → A) (df : DataFrame) : list A :=
  field <$> df.

(** ** pandas primitives used by the filter *)

(** [series >= v] and [series <= v] on an integer column. *)
Definition series_ge (s : list Z) (v : Z) : list bool :=
  (λ y, bool_decide (v ≤ y)) <$> s.

Definition series_le (s : list Z) (v : Z) : list bool :=
  (λ y, bool_decide (y ≤ v)) <$> s.

(** [series == v] on a string column: a missing cell compares unequal to
    every string. *)
Definition series_eq (s : list (option string)) (v : string) : list bool :=
  (λ c, bool_decide (c = Some v)) <$> s.

(** [mask1 & mask2]. *)
Definition mask_and (m1 m2 : list bool) : list bool := zip_with andb m1 m2.

(** [df[mask]]: the rows whose mask entry is true, in table order. *)
Fixpoint getitem_mask {A : Type} (df : list A) (mask : list bool) : list A :=
  match df, mask with
  | r :: df', b :: mask' =>
      if b then r :: getitem_mask df' mask' else getitem_mask df' mask'
  | _, _ => []
  end.

(** [Series.min()] / [Series.max()] followed by [int(...)]: on an empty
    column pandas yields NaN and [int] raises, which is [None] here. *)
Definition series_min (s : list Z) : option Z :=
  match s with
  | [] => None
  | y :: s' => Some (foldr Z.min y s')
  end.

Definition series_max (s : list Z) : option Z :=
  match s with
  | [] => None
  | y :: s' => Some (foldr Z.max y s')
  end.

(** ** Sidebar filters (app.py, lines 70-84) *)

Definition min_year (df : DataFrame) : option Z := series_min (column Year df).
Definition max_year (df : DataFrame) : option Z := series_max (column Year df).

(** The sentinel entry that the select box puts before the crime types. *)
Definition All : string := "All".

(** ** Apply filters (app.py, lines 89-97) *)

Definition filtered_df (df : DataFrame) (year_range : Z * Z)
    (selected_crime : string) : DataFrame :=
  let filtered_df :=
    getitem_mask df
      (mask_and (series_ge (column Year df) year_range.1)
                (series_le (column Year df) year_range.2)) in
  if bool_decide (selected_crime ≠ All) then
    getitem_mask filtered_df
      (series_eq (column Primary_Type filtered_df) selected_crime)
  else filtered_df.

(** The filter predicate, as a proposition on one row. *)
Definition in_year_range (year_range : Z * Z) (r : Row) : Prop :=
  year_range.1 ≤ Year r ∧ Year r ≤ year_range.2.

Definition crime_matches (selected_crime : string) (r : Row) : Prop :=
  selected_crime = All ∨ Primary_Type r = Some selected_crime.

#[global] Instance in_year_range_dec (yr : Z * Z) (r : Row) :
  Decision (in_year_range yr r) :=
  decide (yr.1 ≤ Year r ∧ Year r ≤ yr.2).

#[global] Instance crime_matches_dec (c : string) (r : Row) :
  Decision (crime_matches c r) :=
  decide (c = All ∨ Primary_Type r = Some c).

(** ** Temporal analysis (app.py, lines 119-124) *)

(** [groupby("Year").size()]: a Series indexed by the distinct years, each
    holding the number of rows of its group.  The order in which pandas
    lists the groups is fixed again by the [sort_values] that follows, so
    the Series is a finite map here. *)
Definition groupby_size (s : list Z) : gmap Z nat :=
  foldr (λ y m, <[y := S (default 0%nat (m !! y))]> m) ∅ s.

(** Number of cells of a year column equal to [y]. *)
Definition rows_of_year (y : Z) (s : list Z) : nat :=
  length (filter (λ x, x = y) s).

(** [.reset_index(name="Crime Count")]: the index becomes an ordinary
    column, giving rows (Year, Crime Count). *)
Definition reset_index (m : gmap Z nat) : list (Z * nat) := map_to_list m.

(** [.sort_values("Year")]: ascending on the first column. *)
Definition year_le (a b : Z * nat) : Prop := a.1 ≤ b.1.

#[global] Instance year_le_dec : RelDecision year_le :=
  λ a b, decide (a.1 ≤ b.1).

Definition sort_values_Year (t : list (Z * nat)) : list (Z * nat) :=
  merge_sort year_le t.

Definition yearly_counts (filtered_df : DataFrame) : list (Z * nat) :=
  sort_values_Year (reset_index (groupby_size (column Year filtered_df))).

(** ** Spatial distribution (app.py, lines 144-152) *)

(** A row of the two-column frame handed to the map. *)
Record GeoRow : Type := mkGeoRow {
  lat : option Q;
  lon : option Q
}.

(** [filtered_df[["Latitude", "Longitude"]].rename(columns=...)]. *)
Definition select_lat_lon (df : DataFrame) : list GeoRow :=
  (λ r, mkGeoRow (Latitude r) (Longitude r)) <$> df.

Definition has_coords (p : GeoRow) : Prop := is_Some (lat p) ∧ is_Some (lon p).

#[global] Instance has_coords_dec (p : GeoRow) : Decision (has_coords p) :=
  decide (is_Some (lat p) ∧ is_Some (lon p)).

(** [.dropna()]: rows with a missing cell in any column are removed. *)
Definition dropna (t : list GeoRow) : list GeoRow := filter has_coords t.

(** The random generator behind [DataFrame.sample]: numpy's [RandomState].
    Only its interface is fixed: seeding, and [permutation n], which
    returns a shuffled [range(n)] and the advanced generator state. *)
Record Generator : Type := mkGenerator {
  rng : Type;
  RandomState : Z → rng;
  permutation : rng → nat → list nat * rng
}.

(** What [permutation] promises: a rearrangement of [0 .. n-1]. *)
Definition lawful (G : Generator) : Prop :=
  ∀ (g : rng G) (n : nat), (permutation G g n).1 ≡ₚ seq 0 n.

(** [frame.take(indices)]: the rows at the given positions, in the order of
    the positions; a position outside the frame raises. *)
Definition take_rows {A : Type} (df : list A) (indices : list nat)
    : option (list A) :=
  mapM (λ i, df !! i) indices.

(** [frame.sample(n, random_state=...)] without replacement: the first [n]
    entries of a permutation of the row positions, then [take].  An integer
    [random_state] seeds a fresh generator and leaves the ambient one
    alone; without it the ambient generator [g] is used and advanced.
    Asking for more rows than the frame has raises. *)
Definition sample {A : Type} (G : Generator) (n : nat)
    (random_state : option Z) (df : list A) (g : rng G)
    : option (list A) * rng G :=
  if decide (n ≤ length df)%nat then
    let '(locs, g') :=
      match random_state with
      | Some s => ((permutation G (RandomState G s) (length df)).1, g)
      | None => permutation G g (length df)
      end in
    (take_rows df (take n locs), g')
  else (None, g).

Definition MAP_SAMPLE_SIZE : nat := Z.to_nat 50000.

Definition map_df (G : Generator) (filtered_df : DataFrame) (g : rng G)
    : option (list GeoRow) * rng G :=
  let map_df := dropna (select_lat_lon filtered_df) in
  if decide (MAP_SAMPLE_SIZE < length map_df)%nat then
    sample G MAP_SAMPLE_SIZE (Some 42) map_df g
  else (Some map_df, g).

(** The rows of a table that carry both coordinates, projected to the
    map's two columns: what the sample is drawn from. *)
Definition located (df : DataFrame) : list GeoRow :=
  select_lat_lon
    (filter (λ r, is_Some (Latitude r) ∧ is_Some (Longitude r)) df).

(** ** Top 5 crime types (app.py, lines 159-167) *)

(** The non-missing cells of a column. *)
Definition notna {A : Type} (s : list (option A)) : list A := omap id s.

(** Distinct values in order of first appearance. *)
Fixpoint unique (s : list string) : list string :=
  match s with
  | [] => []
  | v :: s' => v :: filter (λ w, w ≠ v) (unique s')
  end.

(** Number of cells equal to [v]. *)
Definition occurrences (v : string) (s : list string) : nat :=
  length (filter (λ w, w = v) s).

Definition count_ge (a b : string * nat) : Prop := (b.2 ≤ a.2)%nat.

#[global] Instance count_ge_dec : RelDecision count_ge :=
  λ a b, decide (b.2 ≤ a.2)%nat.

(** [Series.value_counts()]: missing cells are dropped, every distinct
    value gets its number of occurrences, and the entries are sorted by
    count, largest first. *)
Definition value_counts (s : list (option string)) : list (string * nat) :=
  let values := notna s in
  merge_sort count_ge ((λ v, (v, occurrences v values)) <$> unique values).

(** [.head(n)]. *)
Definition head_rows {A : Type} (n : nat) (t : list A) : list A := take n t.

Definition top_crimes (filtered_df : DataFrame) : list (string * nat) :=
  head_rows 5 (value_counts (column Primary_Type filtered_df)).

(** ** The whole page *)

(** Everything one run of the script hands to the renderer. *)
Record Page : Type := mkPage {
  page_filtered : DataFrame;
  page_selected_rows : nat;
  page_sample_records : DataFrame;
  page_yearly_counts : list (Z * nat);
  page_map : list GeoRow;
  page_top_crimes : option (list (string * nat))
}.

(** One run of the script on a loaded table, for the widget values
    [year_range] and [selected_crime] and the ambient generator state [g].
    The run stops with an error ([None]) where the script raises: at the
    slider bounds of an empty table, or inside [sample]. *)
Definition app (G : Generator) (df : DataFrame) (year_range : Z * Z)
    (selected_crime : string) (g : rng G) : option Page * rng G :=
  match min_year df, max_year df with
  | Some _, Some _ =>
      let filtered := filtered_df df year_range selected_crime in
      match map_df G filtered g with
      | (Some points, g') =>
          (Some {| page_filtered := filtered;
                   page_selected_rows := length filtered;
                   page_sample_records := head_rows 5 filtered;
                   page_yearly_counts := yearly_counts filtered;
                   page_map := points;
                   page_top_crimes :=
                     if bool_decide (selected_crime = All)
                     then Some (top_crimes filtered) else None |}, g')
      | (None, g') => (None, g')
      end
  | _, _ => (None, g)
  end.

(** ** Loading the table (app.py, lines 50-61) *)

Definition FILE_ID : string := "1YV39W4t48fKWGfxO1GoMqjXznb98agvy".
Definition CSV_PATH : string := "chicago_crime_dashboard.csv".
Definition GDRIVE_URL : string := "https://drive.google.com/uc?id=" +:+ FILE_ID.

(** The files of the working directory: path to content. *)
Abbreviation Files := (gmap string string).

(** [load_data], the body under the decorator.  [download url output]
    stands for [gdown.download]: whatever it does to the files, a failed
    download is one that leaves no file at [output], and the read that
    follows raises.  [read_csv] stands for the pandas parser applied to a
    file's content ([None]: it raises). *)
Definition load_data (download : string → string → Files → Files)
    (read_csv : string → option DataFrame) (fs : Files)
    : option DataFrame * Files :=
  let fs' :=
    if bool_decide (fs !! CSV_PATH = None)
    then download GDRIVE_URL CSV_PATH fs else fs in
  (fs' !! CSV_PATH ≫= read_csv, fs').



(** ** The widgets' choices (app.py, lines 73-84) *)

(** The slider's initial value, [(min_year, max_year)]. *)
Definition default_year_range (df : DataFrame) : option (Z * Z) :=
  match min_year df, max_year df with
  | Some mn, Some mx => Some (mn, mx)
  | _, _ => None
  end.

(** [sorted(df["Primary Type"].dropna().unique())].  Strings are byte
    strings; Python compares strings by code point, which on UTF-8 bytes is
    the bytewise lexicographic order. *)
Definition crime_types (df : DataFrame) : list string :=
  merge_sort String.le (unique (notna (column Primary_Type df))).

(** The entries of the select box, [["All"] + crime_types]. *)
Definition crime_options (df : DataFrame) : list string :=
  All :: crime_types df.

(** ** A concrete generator

    A linear congruential state whose [permutation] rotates [0 .. n-1] by
    the state; it stands in for numpy's Mersenne twister wherever a
    generator has to be run. *)
Definition lcg_next (g : Z) : Z := (1103515245 * g + 12345) mod 2147483648.

Definition lcg : Generator :=
  {| rng := Z;
     RandomState := λ s, s mod 2147483648;
     permutation := λ g n, (rotate (Z.to_nat g) (seq 0 n), lcg_next g) |}.

(** ** Test tables *)

Definition row (y : Z) (c : option string) (la lo : option Q) : Row :=
  mkRow y c la lo [].

Definition years_table : DataFrame :=
  [ row 2018 (Some "THEFT") (Some (41 # 1)%Q) (Some (-87 # 1)%Q);
    row 2019 (Some "BATTERY") None (Some (-87 # 1)%Q);
    row 2019 None (Some (42 # 1)%Q) (Some (-88 # 1)%Q);
    row 2020 (Some "THEFT") (Some (41 # 1)%Q) None ].

Definition categories_table : DataFrame :=
  mjoin ((λ cn : string * nat, replicate cn.2 (row 2020 (Some cn.1) None None))
           <$> [("F", 1); ("C", 5); ("A", 10); ("E", 2); ("B", 7); ("D", 3)]%nat).

(** A download that fetches one fixed content, and a reader that accepts
    one fixed content. *)
Definition fetch_csv (url output : string) (fs : Files) : Files :=
  <[output := "Year,Primary Type,Latitude,Longitude"]> fs.

Definition read_years_table (content : string) : option DataFrame :=
  if bool_decide (content = "Year,Primary Type,Latitude,Longitude")
  then Some years_table else None.

(** * Properties *)

(** ** Boolean indexing is filtering *)

Lemma getitem_mask_fmap {A : Type} (f : A → bool) (l : list A) :
  getitem_mask l (f <$> l) = filter (λ r, f r = true) l.
Proof.
  induction l as [|r l IH]; [done|].
  cbn [fmap list_fmap getitem_mask]. rewrite filter_cons.
  destruct (f r) eqn:E; rewrite IH.
  - by rewrite decide_True.
  - by rewrite decide_False.
Qed.

Lemma mask_and_fmap {A : Type} (f g : A → bool) (l : list A) :
  mask_and (f <$> l) (g <$> l) = (λ r, f r && g r) <$> l.
Proof. induction l as [|r l IH]; [done|]. cbn. f_equal. apply IH. Qed.

Lemma year_mask (df : DataFrame) (year_range : Z * Z) :
  getitem_mask df
    (mask_and (series_ge (column Year df) year_range.1)
              (series_le (column Year df) year_range.2))
  = filter (in_year_range year_range) df.
Proof.
  unfold series_ge, series_le, column. rewrite <- !list_fmap_compose.
  rewrite mask_and_fmap, getitem_mask_fmap.
  apply list_filter_iff. intros r. unfold in_year_range. cbn.
  rewrite andb_true_iff, !bool_decide_eq_true. done.
Qed.

Lemma crime_mask (df : DataFrame) (c : string) :
  getitem_mask df (series_eq (column Primary_Type df) c)
  = filter (λ r, Primary_Type r = Some c) df.
Proof.
  unfold series_eq, column. rewrite <- list_fmap_compose.
  rewrite getitem_mask_fmap. apply list_filter_iff. intros r. cbn.
  by rewrite bool_decide_eq_true.
Qed.

(** [filtered_df] as two nested filters. *)
Lemma filtered_df_filter (df : DataFrame) (yr : Z * Z) (c : string) :
  filtered_df df yr c =
    if decide (c = All) then filter (in_year_range yr) df
    else filter (λ r, Primary_Type r = Some c) (filter (in_year_range yr) df).
Proof.
  unfold filtered_df. rewrite year_mask, crime_mask.
  destruct (decide (c = All)) as [->|Hne].
  - by rewrite bool_decide_false by (intros H; by apply H).
  - by rewrite bool_decide_true.
Qed.

Lemma elem_of_filtered_df (df : DataFrame) (yr : Z * Z) (c : string) (r : Row) :
  r ∈ filtered_df df yr c ↔ r ∈ df ∧ in_year_range yr r ∧ crime_matches c r.
Proof.
  rewrite filtered_df_filter. unfold crime_matches.
  destruct (decide (c = All)) as [->|Hne].
  - rewrite list_elem_of_filter. tauto.
  - rewrite !list_elem_of_filter. intuition congruence.
Qed.

(** ** The year bounds of the slider *)

Lemma foldr_min_le (y : Z) (s : list Z) :
  foldr Z.min y s ≤ y ∧ Forall (λ x, foldr Z.min y s ≤ x) s.
Proof.
  induction s as [|x s [IHy IHs]]; cbn; [split; [lia|constructor]|].
  split; [lia|]. constructor; [lia|].
  eapply Forall_impl; [exact IHs|]. cbn. lia.
Qed.

Lemma foldr_max_ge (y : Z) (s : list Z) :
  y ≤ foldr Z.max y s ∧ Forall (λ x, x ≤ foldr Z.max y s) s.
Proof.
  induction s as [|x s [IHy IHs]]; cbn; [split; [lia|constructor]|].
  split; [lia|]. constructor; [lia|].
  eapply Forall_impl; [exact IHs|]. cbn. lia.
Qed.

Lemma series_min_le (s : list Z) (mn : Z) :
  series_min s = Some mn → Forall (λ x, mn ≤ x) s.
Proof.
  destruct s as [|y s]; cbn; [done|]. intros [= <-].
  destruct (foldr_min_le y s). by constructor.
Qed.

Lemma series_max_ge (s : list Z) (mx : Z) :
  series_max s = Some mx → Forall (λ x, x ≤ mx) s.
Proof.
  destruct s as [|y s]; cbn; [done|]. intros [= <-].
  destruct (foldr_max_ge y s). by constructor.
Qed.

Lemma filter_all {A : Type} (P : A → Prop) `{!∀ x, Decision (P x)}
    (l : list A) :
  Forall P l → filter P l = l.
Proof.
  induction 1 as [|x l Hx _ IH]; [done|].
  by rewrite filter_cons_True, IH.
Qed.

(** ** Counting per year *)

Lemma groupby_size_count (s : list Z) (y : Z) :
  default 0%nat (groupby_size s !! y) = rows_of_year y s.
Proof.
  unfold rows_of_year.
  induction s as [|x s IH]; cbn [groupby_size foldr]; [done|].
  fold (groupby_size s). rewrite filter_cons.
  destruct (decide (x = y)) as [->|Hne].
  - rewrite lookup_insert_eq. cbn. by rewrite IH.
  - by rewrite lookup_insert_ne.
Qed.

Lemma groupby_size_present (s : list Z) (y : Z) :
  is_Some (groupby_size s !! y) ↔ y ∈ s.
Proof.
  induction s as [|x s IH]; cbn [groupby_size foldr].
  - rewrite lookup_empty, elem_of_nil. split; [by intros []|done].
  - fold (groupby_size s). rewrite elem_of_cons.
    destruct (decide (x = y)) as [->|Hne].
    + rewrite lookup_insert_eq. split; eauto.
    + rewrite lookup_insert_ne by done. rewrite IH.
      split; [tauto|]. intros [?|?]; [congruence|done].
Qed.

Lemma groupby_size_lookup (s : list Z) (y : Z) (n : nat) :
  groupby_size s !! y = Some n → n = rows_of_year y s ∧ y ∈ s.
Proof.
  intros H. split.
  - by rewrite <- groupby_size_count, H.
  - apply groupby_size_present. eauto.
Qed.

Lemma groupby_size_total (s : list Z) :
  sum_list (map_to_list (groupby_size s)).*2 = length s.
Proof.
  induction s as [|x s IH]; cbn [groupby_size foldr length].
  - by rewrite map_to_list_empty.
  - fold (groupby_size s). set (m := groupby_size s) in *.
    rewrite <- insert_delete_eq.
    rewrite map_to_list_insert by apply lookup_delete_eq.
    cbn. f_equal. rewrite <- IH.
    destruct (m !! x) as [c|] eqn:E; cbn.
    + rewrite <- (map_to_list_delete m x c E). done.
    + by rewrite delete_id.
Qed.

#[local] Instance year_le_trans : Transitive year_le.
Proof. intros a b c. unfold year_le. lia. Qed.

#[local] Instance year_le_total : Total year_le.
Proof. intros a b. unfold year_le. lia. Qed.

Lemma yearly_counts_perm (t : DataFrame) :
  yearly_counts t ≡ₚ map_to_list (groupby_size (column Year t)).
Proof. apply merge_sort_Permutation. Qed.

Lemma elem_of_yearly_counts (t : DataFrame) (y : Z) (n : nat) :
  (y, n) ∈ yearly_counts t ↔ groupby_size (column Year t) !! y = Some n.
Proof. rewrite yearly_counts_perm. apply elem_of_map_to_list. Qed.

Lemma strictly_sorted_keys (l : list (Z * nat)) :
  StronglySorted year_le l → NoDup l.*1 → StronglySorted Z.lt l.*1.
Proof.
  induction 1 as [|a l Hl IH Ha]; cbn; [constructor|].
  rewrite NoDup_cons. intros [Hnotin Hnd]. constructor; [by apply IH|].
  rewrite Forall_fmap. rewrite Forall_forall in Ha |- *.
  intros b Hb. cbn. specialize (Ha b Hb). unfold year_le in Ha.
  assert (a.1 ≠ b.1); [|lia].
  intros Heq. apply Hnotin. rewrite Heq. apply list_elem_of_fmap. eauto.
Qed.

Lemma rows_of_year_column (t : DataFrame) (y : Z) :
  rows_of_year y (column Year t) = length (filter (λ r, Year r = y) t).
Proof.
  unfold rows_of_year, column.
  induction t as [|r t IH]; [done|].
  cbn [fmap list_fmap]. rewrite filter_cons, (filter_cons (λ r0, Year r0 = y)).
  destruct (decide (Year r = y)); cbn [length]; [f_equal|]; exact IH.
Qed.

(** ** Sampling *)

Lemma take_rows_all {A : Type} (df : list A) :
  take_rows df (seq 0 (length df)) = Some df.
Proof.
  apply mapM_Some, Forall2_same_length_lookup_2.
  - by rewrite length_seq.
  - intros i x y [-> _]%lookup_seq Hy. exact Hy.
Qed.

Lemma mapM_Permutation {A B : Type} (f : A → option B) (p q : list A)
    (a : list B) :
  p ≡ₚ q → mapM f p = Some a → ∃ b, mapM f q = Some b ∧ a ≡ₚ b.
Proof.
  intros Hpq. revert a.
  induction Hpq as [|x p q _ IH|x y p|p q r _ IH1 _ IH2]; intros a; cbn.
  - intros [= <-]. by exists [].
  - destruct (f x) as [b|]; cbn; [|done].
    destruct (mapM f p) as [a'|] eqn:E; cbn; [|done]. intros [= <-].
    destruct (IH a' eq_refl) as (b' & -> & Hb). cbn.
    exists (b :: b'). split; [done|]. by constructor.
  - destruct (f y) as [b|]; cbn; [|done].
    destruct (f x) as [c|]; cbn; [|done].
    destruct (mapM f p) as [a'|]; cbn; [|done]. intros [= <-].
    exists (c :: b :: a'). split; [done|]. by constructor.
  - intros Ha. destruct (IH1 a Ha) as (b & Hb & Hab).
    destruct (IH2 b Hb) as (c & Hc & Hbc).
    exists c. split; [done|]. by etrans.
Qed.

Lemma mapM_take {A B : Type} (f : A → option B) (n : nat) (p : list A)
    (a : list B) :
  mapM f p = Some a → mapM f (take n p) = Some (take n a).
Proof. rewrite !mapM_Some. apply Forall2_take. Qed.

(** A seeded draw on a frame that is large enough succeeds, leaves the
    ambient generator alone and returns [n] rows taken from distinct
    positions of the frame. *)
Lemma sample_seeded {A : Type} (G : Generator) (n : nat) (s : Z)
    (df : list A) (g : rng G) :
  lawful G → (n ≤ length df)%nat →
  ∃ rows, sample G n (Some s) df g = (Some rows, g)
          ∧ length rows = n ∧ rows ⊆+ df.
Proof.
  intros HG Hn. unfold sample. rewrite decide_True by done.
  specialize (HG (RandomState G s) (length df)).
  destruct (mapM_Permutation (λ i, df !! i) _ _ df (symmetry HG)
              (take_rows_all df)) as (b & Hb & Hperm).
  exists (take n b). unfold take_rows. rewrite (mapM_take _ n _ b Hb).
  split; [done|]. split.
  - rewrite length_take_le; [done|]. by rewrite <- Hperm.
  - rewrite Hperm. apply sublist_submseteq, sublist_take.
Qed.

Lemma dropna_select (t : DataFrame) : dropna (select_lat_lon t) = located t.
Proof.
  unfold dropna, located, select_lat_lon.
  induction t as [|r t IH]; [done|].
  cbn [fmap list_fmap].
  rewrite filter_cons,
    (filter_cons (λ r0, is_Some (Latitude r0) ∧ is_Some (Longitude r0))).
  unfold has_coords at 1. cbn [lat lon].
  destruct (decide (is_Some (Latitude r) ∧ is_Some (Longitude r)));
    cbn [fmap list_fmap]; [f_equal|]; exact IH.
Qed.

Lemma located_has_coords (t : DataFrame) : Forall has_coords (located t).
Proof.
  rewrite <- dropna_select. apply Forall_forall. intros p.
  unfold dropna. rewrite list_elem_of_filter. tauto.
Qed.

Lemma elem_of_located (t : DataFrame) (p : GeoRow) :
  p ∈ located t ↔
  ∃ r, r ∈ t ∧ has_coords p ∧ lat p = Latitude r ∧ lon p = Longitude r.
Proof.
  unfold located, select_lat_lon. rewrite list_elem_of_fmap. split.
  - intros (r & -> & [Hr Hin]%list_elem_of_filter). by exists r.
  - intros (r & Hin & [Hla Hlo] & Hlat & Hlon). exists r. split.
    + destruct p. cbn in *. by subst.
    + apply list_elem_of_filter. by rewrite <- Hlat, <- Hlon.
Qed.

(** ** Counting categories *)

Lemma elem_of_unique (s : list string) (v : string) : v ∈ unique s ↔ v ∈ s.
Proof.
  induction s as [|x s IH]; cbn [unique]; [done|].
  rewrite !elem_of_cons, list_elem_of_filter, IH.
  destruct (decide (v = x)); [tauto|]. tauto.
Qed.

Lemma NoDup_unique (s : list string) : NoDup (unique s).
Proof.
  induction s as [|x s IH]; cbn [unique]; [constructor|].
  constructor.
  - rewrite list_elem_of_filter. tauto.
  - by apply NoDup_filter.
Qed.

Lemma occurrences_absent (v : string) (s : list string) :
  v ∉ s → occurrences v s = 0%nat.
Proof.
  intros Hv. unfold occurrences.
  induction s as [|x s IH]; [done|].
  rewrite not_elem_of_cons in Hv. destruct Hv as [Hne Hv].
  rewrite filter_cons_False by congruence. by apply IH.
Qed.

Lemma occurrences_present (v : string) (s : list string) :
  v ∈ s → (0 < occurrences v s)%nat.
Proof.
  intros Hv. unfold occurrences.
  destruct (filter (λ w, w = v) s) as [|w l] eqn:E; cbn; [|lia].
  by destruct (filter_nil_not_elem_of _ _ v E eq_refl).
Qed.

Lemma occurrences_column (v : string) (t : DataFrame) :
  occurrences v (notna (column Primary_Type t))
  = length (filter (λ r, Primary_Type r = Some v) t).
Proof.
  unfold occurrences, notna, column.
  induction t as [|r t IH]; [done|].
  cbn [fmap list_fmap omap list_omap].
  rewrite (filter_cons (λ r0, Primary_Type r0 = Some v)).
  destruct (Primary_Type r) as [c|]; cbn [id].
  - rewrite filter_cons.
    destruct (decide (c = v)) as [->|Hne].
    + rewrite decide_True by done. cbn [length]. f_equal. exact IH.
    + rewrite decide_False by congruence. exact IH.
  - rewrite decide_False by done. exact IH.
Qed.

#[local] Instance count_ge_trans : Transitive count_ge.
Proof. intros a b c. unfold count_ge. lia. Qed.

#[local] Instance count_ge_total : Total count_ge.
Proof. intros a b. unfold count_ge. lia. Qed.

Lemma value_counts_perm (s : list (option string)) :
  value_counts s
  ≡ₚ (λ v, (v, occurrences v (notna s))) <$> unique (notna s).
Proof. apply merge_sort_Permutation. Qed.

Lemma elem_of_value_counts (s : list (option string)) (v : string) (n : nat) :
  (v, n) ∈ value_counts s ↔ Some v ∈ s ∧ n = occurrences v (notna s).
Proof.
  rewrite value_counts_perm, list_elem_of_fmap.
  setoid_rewrite elem_of_unique. unfold notna at 2.
  setoid_rewrite list_elem_of_omap. split.
  - intros (w & [= -> ->] & (c & Hc & <-)). done.
  - intros [Hv ->]. exists v. split; [done|]. by exists (Some v).
Qed.

Lemma value_counts_keys (s : list (option string)) :
  (value_counts s).*1 ≡ₚ unique (notna s).
Proof.
  rewrite value_counts_perm, <- list_fmap_compose.
  induction (unique (notna s)) as [|v l IH]; [done|].
  cbn. by constructor.
Qed.

Lemma value_counts_sorted (s : list (option string)) :
  StronglySorted count_ge (value_counts s).
Proof. apply StronglySorted_merge_sort; apply _. Qed.

Lemma elem_of_take_rows {A : Type} (df : list A) (indices : list nat)
    (rows : list A) (x : A) :
  take_rows df indices = Some rows → x ∈ rows → x ∈ df.
Proof.
  unfold take_rows. rewrite mapM_Some. intros HF Hx.
  induction HF as [|i y indices rows Hi _ IH]; [by apply elem_of_nil in Hx|].
  apply elem_of_cons in Hx as [->|Hx]; [|by apply IH].
  by eapply list_elem_of_lookup_2.
Qed.

(** Whatever the generator does, a draw that succeeds returns rows of the
    frame. *)
Lemma elem_of_sample {A : Type} (G : Generator) (n : nat)
    (random_state : option Z) (df : list A) (g : rng G) (rows : list A)
    (x : A) :
  (sample G n random_state df g).1 = Some rows → x ∈ rows → x ∈ df.
Proof.
  unfold sample. destruct (decide (n ≤ length df)%nat); [|done].
  destruct random_state as [s|].
  - cbn. apply elem_of_take_rows.
  - destruct (permutation G g (length df)) as [locs g']. cbn.
    apply elem_of_take_rows.
Qed.

Lemma elem_of_map_df (G : Generator) (t : DataFrame) (g : rng G)
    (pts : list GeoRow) (p : GeoRow) :
  (map_df G t g).1 = Some pts → p ∈ pts → p ∈ located t.
Proof.
  unfold map_df. rewrite dropna_select.
  destruct (decide (MAP_SAMPLE_SIZE < length (located t))%nat).
  - apply elem_of_sample.
  - cbn. by intros [= <-].
Qed.

(** With a lawful generator the map frame is always produced: the located
    rows themselves up to the cap, and a draw of exactly the cap beyond
    it. *)
Lemma map_df_spec (G : Generator) (t : DataFrame) (g : rng G) :
  lawful G →
  ∃ pts, map_df G t g = (Some pts, g) ∧ pts ⊆+ located t ∧
    if decide (length (located t) ≤ MAP_SAMPLE_SIZE)%nat
    then pts = located t else length pts = MAP_SAMPLE_SIZE.
Proof.
  intros HG. unfold map_df. rewrite dropna_select.
  destruct (decide (MAP_SAMPLE_SIZE < length (located t))%nat) as [Hgt|Hle].
  - destruct (sample_seeded G MAP_SAMPLE_SIZE 42 (located t) g HG)
      as (rows & Hrows & Hlen & Hsub); [lia|].
    exists rows. rewrite decide_False by lia. done.
  - exists (located t). rewrite decide_True by lia. done.
Qed.

Lemma lcg_lawful : lawful lcg.
Proof.
  intros g n. cbn. unfold rotate.
  rewrite Permutation_app_comm. by rewrite take_drop.
Qed.

(** ** The pipeline on the test tables *)

Example years_2019_only :
  length (filtered_df years_table (2019, 2019) All) = 2%nat
  ∧ yearly_counts (filtered_df years_table (2019, 2019) All)
    = [(2019, 2%nat)].
Proof. split; vm_compute; reflexivity. Qed.

Example absent_category_empty :
  filtered_df years_table (2018, 2020) "ARSON" = []
  ∧ yearly_counts (filtered_df years_table (2018, 2020) "ARSON") = []
  ∧ map_df lcg (filtered_df years_table (2018, 2020) "ARSON") 7
    = (Some [], 7).
Proof. repeat split; vm_compute; reflexivity. Qed.

Example top_five_of_six :
  top_crimes (filtered_df categories_table (2020, 2020) All)
  = [("A", 10); ("B", 7); ("C", 5); ("D", 3); ("E", 2)]%nat.
Proof. vm_compute. reflexivity. Qed.

Example seeded_sample :
  sample lcg 2 (Some 42) [10; 20; 30; 40; 50] 7 = (Some [30; 40], 7).
Proof. vm_compute. reflexivity. Qed.

(** Without a seed the draw follows the ambient generator. *)
Example unseeded_sample_follows_state :
  (sample lcg 2 None [10; 20; 30; 40; 50] 0).1 = Some [10; 20]
  ∧ (sample lcg 2 None [10; 20; 30; 40; 50] 1).1 = Some [20; 30].
Proof. split; vm_compute; reflexivity. Qed.

(** With a lawful generator a run on a loaded table goes through, for every
    filter state. *)
Lemma app_succeeds (G : Generator) (df : DataFrame) (year_range : Z * Z)
    (selected_crime : string) (g : rng G) :
  lawful G → df ≠ [] →
  ∃ pts,
    map_df G (filtered_df df year_range selected_crime) g = (Some pts, g) ∧
    app G df year_range selected_crime g
    = (Some {| page_filtered := filtered_df df year_range selected_crime;
               page_selected_rows :=
                 length (filtered_df df year_range selected_crime);
               page_sample_records :=
                 head_rows 5 (filtered_df df year_range selected_crime);
               page_yearly_counts :=
                 yearly_counts (filtered_df df year_range selected_crime);
               page_map := pts;
               page_top_crimes :=
                 if bool_decide (selected_crime = All)
                 then Some (top_crimes
                              (filtered_df df year_range selected_crime))
                 else None |}, g).
Proof.
  intros HG Hdf. unfold app. destruct df as [|r df]; [done|].
  cbn [min_year max_year column fmap list_fmap series_min series_max].
  set (t := filtered_df (r :: df) year_range selected_crime).
  destruct (map_df_spec G t g HG) as (pts & Hpts & _).
  exists pts. by rewrite Hpts.
Qed.

(** * The claims *)

(** C1 (filter correctness).  For every table and every filter state, a
    record is in the filtered table exactly when it is a record of the
    table, its year lies between the two ends of the year range, and the
    selected crime is the "All" entry or equals the record's primary
    type. *)
Theorem filter_correctness (df : DataFrame) (year_min year_max : Z)
    (category : string) (record : Row) :
  record ∈ filtered_df df (year_min, year_max) category ↔
  record ∈ df ∧ (year_min ≤ Year record ∧ Year record ≤ year_max)
  ∧ (category = All ∨ Primary_Type record = Some category).
Proof.
  rewrite filtered_df_filter. unfold in_year_range. cbn [fst snd].
  destruct (decide (category = All)) as [->|Hne].
  - rewrite list_elem_of_filter. tauto.
  - rewrite !list_elem_of_filter. split.
    + intros (Hc & Hyr & Hin). auto.
    + intros (Hin & Hyr & [Hc|Hc]); [done|auto].
Qed.

(** C2 (subsequence, no error on an empty result).  The filtered table is
    a subsequence of the table, rows in their original order.  On a loaded
    (non-empty) table the whole run succeeds for every filter state and
    shows that filtered table; when the filter leaves no row, the run
    still succeeds and every view is empty. *)
Theorem filtered_df_subsequence (G : Generator) (df : DataFrame)
    (year_range : Z * Z) (selected_crime : string) (g : rng G) :
  filtered_df df year_range selected_crime `sublist_of` df ∧
  (lawful G → df ≠ [] →
   ∃ page, (app G df year_range selected_crime g).1 = Some page ∧
     page_filtered page = filtered_df df year_range selected_crime ∧
     (filtered_df df year_range selected_crime = [] →
        page_selected_rows page = 0%nat ∧ page_sample_records page = [] ∧
        page_yearly_counts page = [] ∧ page_map page = [] ∧
        page_top_crimes page
        = if bool_decide (selected_crime = All) then Some [] else None)).
Proof.
  split.
  - rewrite filtered_df_filter. destruct (decide (selected_crime = All)).
    + apply sublist_filter.
    + etrans; apply sublist_filter.
  - intros HG Hdf.
    destruct (app_succeeds G df year_range selected_crime g HG Hdf)
      as (pts & Hpts & Happ).
    rewrite Happ. eexists. split; [done|]. split; [done|].
    intros Ht. cbn. rewrite Ht in *. clear Happ.
    destruct (map_df_spec G [] g HG) as (pts' & Hpts' & Hsub & _).
    rewrite Hpts in Hpts'. injection Hpts' as <-.
    apply submseteq_nil_r in Hsub as ->. done.
Qed.

Lemma filtered_df_subsequence_witness :
  filtered_df years_table (2019, 2019) "ARSON" = [] ∧
  ∃ page, (app lcg years_table (2019, 2019) "ARSON" 7).1 = Some page ∧
    page_selected_rows page = 0%nat ∧ page_yearly_counts page = [] ∧
    page_map page = [] ∧ page_top_crimes page = None.
Proof.
  split; [reflexivity|].
  destruct (filtered_df_subsequence lcg years_table (2019, 2019) "ARSON" 7)
    as [_ Hrun].
  destruct (Hrun lcg_lawful) as (page & Hpage & _ & Hempty);
    [discriminate|].
  exists page. split; [exact Hpage|].
  destruct (Hempty eq_refl) as (Hrows & _ & Hyears & Hmap & Htop).
  auto.
Defined.

(** C3 (yearly aggregate).  The yearly counts have one entry per distinct
    year of the table and no other entry, each entry's count is the number
    of rows of that year, the years ascend strictly, and an empty table
    gives no entry. *)
Theorem yearly_counts_spec (t : DataFrame) :
  NoDup (yearly_counts t).*1 ∧
  (∀ y, y ∈ (yearly_counts t).*1 ↔ ∃ r, r ∈ t ∧ Year r = y) ∧
  (∀ y n, (y, n) ∈ yearly_counts t →
          n = length (filter (λ r, Year r = y) t)) ∧
  StronglySorted Z.lt (yearly_counts t).*1 ∧
  yearly_counts [] = [].
Proof.
  assert (NoDup (yearly_counts t).*1) as Hnd.
  { rewrite yearly_counts_perm. apply NoDup_fst_map_to_list. }
  split; [done|]. split; [|split; [|split]].
  - intros y. rewrite list_elem_of_fmap. split.
    + intros ([y' n] & -> & Hin). cbn.
      apply elem_of_yearly_counts, groupby_size_lookup in Hin as [_ Hy].
      apply list_elem_of_fmap in Hy as (r & -> & Hr). eauto.
    + intros (r & Hr & <-).
      destruct (proj2 (groupby_size_present (column Year t) (Year r)))
        as [n Hn].
      { apply list_elem_of_fmap. eauto. }
      exists (Year r, n). split; [done|]. by apply elem_of_yearly_counts.
  - intros y n [-> _]%elem_of_yearly_counts%groupby_size_lookup.
    apply rows_of_year_column.
  - apply strictly_sorted_keys; [|done].
    apply StronglySorted_merge_sort; apply _.
  - reflexivity.
Qed.

(** C4 (count consistency).  The counts of the yearly aggregate add up to
    the number of rows of the table it was computed from. *)
Theorem yearly_counts_total (t : DataFrame) :
  sum_list (yearly_counts t).*2 = length t.
Proof.
  rewrite yearly_counts_perm, groupby_size_total.
  unfold column. apply length_fmap.
Qed.

(** C5 (geo sample).  With a generator whose [permutation] is one, the map
    frame is produced and holds no row with a missing latitude or
    longitude.  When at most 50,000 rows have both coordinates, it is
    exactly those rows in table order; otherwise it has exactly 50,000
    rows.  Its length never exceeds the smaller of the two numbers. *)
Theorem map_df_sample (G : Generator) (t : DataFrame) (g : rng G) :
  lawful G →
  Z.of_nat MAP_SAMPLE_SIZE = 50000 ∧
  ∃ pts, (map_df G t g).1 = Some pts ∧
    Forall has_coords pts ∧
    ((length (located t) ≤ MAP_SAMPLE_SIZE)%nat → pts = located t) ∧
    ((MAP_SAMPLE_SIZE < length (located t))%nat →
       length pts = MAP_SAMPLE_SIZE) ∧
    (length pts ≤ length (located t) `min` MAP_SAMPLE_SIZE)%nat.
Proof.
  intros HG. split; [reflexivity|].
  destruct (map_df_spec G t g HG) as (pts & Hpts & Hsub & Hcap).
  exists pts. rewrite Hpts. split; [done|].
  pose proof (submseteq_length _ _ Hsub) as Hlen.
  split; [|split; [|split]].
  - apply Forall_forall. intros p Hp.
    eapply Forall_forall; [apply (located_has_coords t)|].
    eapply elem_of_submseteq; eauto.
  - intros Hle. by rewrite decide_True in Hcap.
  - intros Hgt. by rewrite decide_False in Hcap by lia.
  - destruct (decide (length (located t) ≤ MAP_SAMPLE_SIZE)%nat); [|lia].
    subst pts. lia.
Qed.

Lemma map_df_sample_witness :
  Z.of_nat MAP_SAMPLE_SIZE = 50000 ∧
  ∃ pts, (map_df lcg years_table 7).1 = Some pts ∧
    Forall has_coords pts ∧
    ((length (located years_table) ≤ MAP_SAMPLE_SIZE)%nat →
       pts = located years_table) ∧
    ((MAP_SAMPLE_SIZE < length (located years_table))%nat →
       length pts = MAP_SAMPLE_SIZE) ∧
    (length pts ≤ length (located years_table) `min` MAP_SAMPLE_SIZE)%nat.
Proof. apply (map_df_sample lcg years_table 7), lcg_lawful. Defined.

(** C6 (sampling determinism).  The map frame of a table does not depend
    on the state of the ambient random generator: two runs on the same
    filtered table, started in any two generator states, give the same
    rows in the same order, and so does a second run that follows a first
    one. *)
Theorem map_df_deterministic (G : Generator) (t : DataFrame) (g1 g2 : rng G) :
  (map_df G t g1).1 = (map_df G t g2).1 ∧
  (map_df G t (map_df G t g1).2).1 = (map_df G t g1).1.
Proof.
  assert (∀ g g', (map_df G t g).1 = (map_df G t g').1) as H.
  { intros g g'. unfold map_df, sample.
    repeat case_decide; reflexivity. }
  split; apply H.
Qed.

(** C7 (top categories).  The top crimes have at most five entries, listed
    by descending count, no category twice; an entry's count is the number
    of rows whose primary type is that category, so rows without a primary
    type are counted nowhere; and no category left out has more rows than
    a category listed. *)
Theorem top_crimes_spec (t : DataFrame) :
  (length (top_crimes t) ≤ 5)%nat ∧
  StronglySorted count_ge (top_crimes t) ∧
  NoDup (top_crimes t).*1 ∧
  (∀ c n, (c, n) ∈ top_crimes t →
          n = length (filter (λ r, Primary_Type r = Some c) t)
          ∧ (0 < n)%nat) ∧
  (∀ c n c', (c, n) ∈ top_crimes t → c' ∉ (top_crimes t).*1 →
     (length (filter (λ r, Primary_Type r = Some c') t) ≤ n)%nat).
Proof.
  unfold top_crimes, head_rows.
  set (s := column Primary_Type t). set (vc := value_counts s).
  pose proof (value_counts_sorted s) as Hsorted. fold vc in Hsorted.
  rewrite <- (take_drop 5 vc) in Hsorted.
  split; [|split; [|split; [|split]]].
  - rewrite length_take. lia.
  - by apply StronglySorted_app_1_l in Hsorted.
  - rewrite fmap_take. eapply sublist_NoDup; [|apply sublist_take].
    unfold vc. rewrite value_counts_keys. apply NoDup_unique.
  - intros c n Hin. apply subseteq_take in Hin.
    apply elem_of_value_counts in Hin as [Hc ->].
    split; [apply occurrences_column|].
    apply occurrences_present, list_elem_of_omap. by exists (Some c).
  - intros c n c' Hin Hout. rewrite <- occurrences_column. fold s.
    destruct (decide (Some c' ∈ s)) as [Hc'|Hc'].
    + assert ((c', occurrences c' (notna s)) ∈ vc) as Hvc
        by by apply elem_of_value_counts.
      rewrite <- (take_drop 5 vc) in Hvc.
      apply elem_of_app in Hvc as [Hvc|Hvc].
      * destruct Hout. apply list_elem_of_fmap.
        by exists (c', occurrences c' (notna s)).
      * apply (StronglySorted_app_1_elem_of _ _ _ _ _ Hsorted Hin Hvc).
    + rewrite occurrences_absent; [lia|].
      unfold notna. rewrite list_elem_of_omap.
      intros ([c''|] & Hin' & [= ->]). done.
Qed.

(** The derived views do not look at rows with a missing cell. *)
Lemma top_crimes_skips_missing (t : DataFrame) :
  top_crimes t = top_crimes (filter (λ r, is_Some (Primary_Type r)) t).
Proof.
  unfold top_crimes, value_counts. cbn zeta.
  assert (notna (column Primary_Type t)
          = notna (column Primary_Type
                     (filter (λ r, is_Some (Primary_Type r)) t))) as <-;
    [|done].
  unfold notna, column. induction t as [|r t IH]; [done|].
  rewrite (filter_cons (λ r0, is_Some (Primary_Type r0))).
  cbn [fmap list_fmap omap list_omap].
  destruct (Primary_Type r) as [c|] eqn:E.
  - rewrite decide_True by eauto.
    cbn [fmap list_fmap omap list_omap]. rewrite E. cbn [id]. f_equal.
    exact IH.
  - rewrite decide_False by (by intros [? ?]). exact IH.
Qed.

Lemma located_skips_missing (t : DataFrame) :
  located t
  = located (filter (λ r, is_Some (Latitude r) ∧ is_Some (Longitude r)) t).
Proof.
  unfold located. f_equal. symmetry. apply filter_all.
  apply Forall_forall. intros r. rewrite list_elem_of_filter. tauto.
Qed.

Lemma map_df_skips_missing (G : Generator) (t : DataFrame) (g : rng G) :
  map_df G t g
  = map_df G
      (filter (λ r, is_Some (Latitude r) ∧ is_Some (Longitude r)) t) g.
Proof. unfold map_df. by rewrite !dropna_select, <- located_skips_missing. Qed.

(** C8 (missing values).  A missing primary type or coordinate is no
    error and does not remove a row from the filtered table: every row of
    the table that passes the filter is in the filtered table, whatever
    cells it lacks.  The top crimes are those of the rows that have a
    primary type, the map frame is that of the rows that have both
    coordinates, and a row lacking a coordinate has no point in the map
    frame.  On a loaded table the run succeeds. *)
Theorem missing_values_tolerated (G : Generator) (df : DataFrame)
    (year_range : Z * Z) (selected_crime : string) (g : rng G) :
  (∀ r, r ∈ df → year_range.1 ≤ Year r ∧ Year r ≤ year_range.2 →
        selected_crime = All ∨ Primary_Type r = Some selected_crime →
        r ∈ filtered_df df year_range selected_crime) ∧
  top_crimes (filtered_df df year_range selected_crime)
  = top_crimes (filter (λ r, is_Some (Primary_Type r))
                  (filtered_df df year_range selected_crime)) ∧
  map_df G (filtered_df df year_range selected_crime) g
  = map_df G (filter (λ r, is_Some (Latitude r) ∧ is_Some (Longitude r))
                (filtered_df df year_range selected_crime)) g ∧
  (∀ pts r,
     (map_df G (filtered_df df year_range selected_crime) g).1 = Some pts →
     ¬ (is_Some (Latitude r) ∧ is_Some (Longitude r)) →
     mkGeoRow (Latitude r) (Longitude r) ∉ pts) ∧
  (lawful G → df ≠ [] →
   is_Some (app G df year_range selected_crime g).1 ∧
   is_Some (map_df G (filtered_df df year_range selected_crime) g).1).
Proof.
  split; [|split; [|split; [|split]]].
  - intros r Hr Hyr Hc. apply elem_of_filtered_df. done.
  - apply top_crimes_skips_missing.
  - apply map_df_skips_missing.
  - intros pts r Hpts Hmiss Hin. apply Hmiss.
    apply (elem_of_map_df _ _ _ _ _ Hpts), elem_of_located in Hin
      as (r' & _ & Hcoords & _). exact Hcoords.
  - intros HG Hdf.
    destruct (app_succeeds G df year_range selected_crime g HG Hdf)
      as (pts & Hpts & Happ).
    rewrite Happ, Hpts. split; eauto.
Qed.

Lemma missing_values_tolerated_witness :
  row 2019 None (Some (42 # 1)%Q) (Some (-88 # 1)%Q)
    ∈ filtered_df years_table (2019, 2020) All ∧
  row 2020 (Some "THEFT") (Some (41 # 1)%Q) None
    ∈ filtered_df years_table (2019, 2020) All ∧
  is_Some (app lcg years_table (2019, 2020) All 7).1.
Proof.
  destruct (missing_values_tolerated lcg years_table (2019, 2020) All 7)
    as (Hkept & _ & _ & _ & Hrun).
  split; [|split].
  - apply Hkept; [apply list_elem_of_In; simpl; tauto|cbn; lia|by left].
  - apply Hkept; [apply list_elem_of_In; simpl; tauto|cbn; lia|by left].
  - apply Hrun; [apply lcg_lawful|discriminate].
Defined.

(** C9 (full domain).  With the year range at the table's smallest and
    largest year and the "All" entry selected, the filtered table is the
    table itself. *)
Theorem filtered_df_full_domain (df : DataFrame) (mn mx : Z) :
  min_year df = Some mn → max_year df = Some mx →
  filtered_df df (mn, mx) All = df.
Proof.
  intros Hmn Hmx. rewrite filtered_df_filter, decide_True by done.
  apply filter_all.
  apply series_min_le in Hmn. apply series_max_ge in Hmx.
  unfold column in *. rewrite Forall_fmap in Hmn, Hmx.
  rewrite Forall_forall in Hmn, Hmx |- *.
  intros r Hr. split; cbn; [by apply Hmn|by apply Hmx].
Qed.

Lemma filtered_df_full_domain_witness :
  filtered_df years_table (2018, 2020) All = years_table.
Proof.
  apply (filtered_df_full_domain years_table 2018 2020); reflexivity.
Defined.

(** C10 (provenance of map points).  Every point of the map frame comes
    from a row of the filtered table: a row of the table whose coordinates
    are the point's, whose year lies in the selected range and whose
    primary type is the selected crime unless "All" is selected. *)
Theorem map_df_points_filtered (G : Generator) (df : DataFrame)
    (year_range : Z * Z) (selected_crime : string) (g : rng G)
    (pts : list GeoRow) (p : GeoRow) :
  (map_df G (filtered_df df year_range selected_crime) g).1 = Some pts →
  p ∈ pts →
  ∃ r, r ∈ filtered_df df year_range selected_crime ∧ r ∈ df ∧
       p = mkGeoRow (Latitude r) (Longitude r) ∧
       (year_range.1 ≤ Year r ∧ Year r ≤ year_range.2) ∧
       (selected_crime = All ∨ Primary_Type r = Some selected_crime).
Proof.
  intros Hpts Hp.
  apply (elem_of_map_df _ _ _ _ _ Hpts), elem_of_located in Hp
    as (r & Hr & _ & Hlat & Hlon).
  exists r. split; [done|].
  apply elem_of_filtered_df in Hr as (Hdf & Hyr & Hc).
  split; [done|]. split; [|done].
  destruct p. cbn in *. by subst.
Qed.

Lemma map_df_points_filtered_witness :
  ∃ r, r ∈ filtered_df years_table (2018, 2019) All ∧ r ∈ years_table ∧
       mkGeoRow (Some (42 # 1)%Q) (Some (-88 # 1)%Q)
       = mkGeoRow (Latitude r) (Longitude r) ∧
       ((2018, 2019).1 ≤ Year r ∧ Year r ≤ (2018, 2019).2) ∧
       (All = All ∨ Primary_Type r = Some All).
Proof.
  apply (map_df_points_filtered lcg years_table (2018, 2019) All 7
           [mkGeoRow (Some (41 # 1)%Q) (Some (-87 # 1)%Q);
            mkGeoRow (Some (42 # 1)%Q) (Some (-88 # 1)%Q)]).
  - vm_compute. reflexivity.
  - apply list_elem_of_In. simpl. tauto.
Defined.

(** * Further properties of the script *)

(** ** The widgets' choices *)

Lemma foldr_min_elem (y : Z) (s : list Z) : foldr Z.min y s ∈ y :: s.
Proof.
  induction s as [|x s IH]; cbn [foldr]; [by left|].
  destruct (Z.min_spec x (foldr Z.min y s)) as [[_ ->]|[_ ->]].
  - right. by left.
  - apply elem_of_cons in IH as [->|IH]; [by left|]. right. by right.
Qed.

Lemma foldr_max_elem (y : Z) (s : list Z) : foldr Z.max y s ∈ y :: s.
Proof.
  induction s as [|x s IH]; cbn [foldr]; [by left|].
  destruct (Z.max_spec x (foldr Z.max y s)) as [[_ ->]|[_ ->]].
  - apply elem_of_cons in IH as [->|IH]; [by left|]. right. by right.
  - right. by left.
Qed.

Lemma elem_of_year_column (df : DataFrame) (y : Z) :
  y ∈ column Year df ↔ ∃ r, r ∈ df ∧ Year r = y.
Proof.
  unfold column. rewrite list_elem_of_fmap. split.
  - intros (r & -> & Hr). eauto.
  - intros (r & Hr & <-). eauto.
Qed.

Lemma elem_of_notna_types (df : DataFrame) (c : string) :
  c ∈ notna (column Primary_Type df) ↔ ∃ r, r ∈ df ∧ Primary_Type r = Some c.
Proof.
  unfold notna, column. rewrite list_elem_of_omap. split.
  - intros (o & (r & -> & Hr)%list_elem_of_fmap & Ho). cbn in Ho. eauto.
  - intros (r & Hr & Hc). exists (Some c). split; [|done].
    apply list_elem_of_fmap. eauto.
Qed.

Lemma crime_types_perm (df : DataFrame) :
  crime_types df ≡ₚ unique (notna (column Primary_Type df)).
Proof. apply merge_sort_Permutation. Qed.

Lemma elem_of_crime_types (df : DataFrame) (c : string) :
  c ∈ crime_types df ↔ ∃ r, r ∈ df ∧ Primary_Type r = Some c.
Proof. by rewrite crime_types_perm, elem_of_unique, elem_of_notna_types. Qed.

(** X1 (slider bounds).  On a table with at least one row both slider
    bounds are defined, each is the year of some row, every row's year lies
    between them, the lower bound does not exceed the upper one, and the
    slider starts at exactly these two bounds. *)
Theorem year_bounds (df : DataFrame) :
  df ≠ [] →
  ∃ mn mx, min_year df = Some mn ∧ max_year df = Some mx ∧
    default_year_range df = Some (mn, mx) ∧ mn ≤ mx ∧
    (∃ r, r ∈ df ∧ Year r = mn) ∧ (∃ r, r ∈ df ∧ Year r = mx) ∧
    ∀ r, r ∈ df → mn ≤ Year r ∧ Year r ≤ mx.
Proof.
  intros Hdf. destruct df as [|r0 df]; [done|].
  unfold default_year_range, min_year, max_year.
  cbn [column fmap list_fmap series_min series_max].
  fold (column Year df).
  set (mn := foldr Z.min (Year r0) (column Year df)).
  set (mx := foldr Z.max (Year r0) (column Year df)).
  exists mn, mx.
  destruct (foldr_min_le (Year r0) (column Year df)) as [Hmn0 Hmn].
  destruct (foldr_max_ge (Year r0) (column Year df)) as [Hmx0 Hmx].
  fold mn in Hmn0, Hmn. fold mx in Hmx0, Hmx.
  rewrite Forall_forall in Hmn, Hmx.
  repeat split; try done.
  - lia.
  - apply (elem_of_year_column (r0 :: df)). apply foldr_min_elem.
  - apply (elem_of_year_column (r0 :: df)). apply foldr_max_elem.
  - apply elem_of_cons in H as [->|Hr]; [done|].
    apply Hmn, list_elem_of_fmap. eauto.
  - apply elem_of_cons in H as [->|Hr]; [done|].
    apply Hmx, list_elem_of_fmap. eauto.
Qed.

Lemma year_bounds_witness :
  ∃ mn mx, min_year years_table = Some mn ∧ max_year years_table = Some mx ∧
    default_year_range years_table = Some (mn, mx) ∧ mn ≤ mx ∧
    (∃ r, r ∈ years_table ∧ Year r = mn) ∧
    (∃ r, r ∈ years_table ∧ Year r = mx) ∧
    ∀ r, r ∈ years_table → mn ≤ Year r ∧ Year r ≤ mx.
Proof. apply (year_bounds years_table). discriminate. Defined.

(** X2 (crime types of the select box).  The crime types offered are
    sorted ascending, list no type twice, and are exactly the primary types
    that occur in the table; a missing primary type is not offered. *)
Theorem crime_types_spec (df : DataFrame) :
  StronglySorted String.le (crime_types df) ∧
  NoDup (crime_types df) ∧
  ∀ c, c ∈ crime_types df ↔ ∃ r, r ∈ df ∧ Primary_Type r = Some c.
Proof.
  split; [|split].
  - apply StronglySorted_merge_sort; apply _.
  - rewrite crime_types_perm. apply NoDup_unique.
  - apply elem_of_crime_types.
Qed.

(** X3 (an offered crime type selects rows).  With the slider at its
    initial range, choosing any crime type the select box offers leaves at
    least one row; unless that type is spelled like the "All" entry, every
    row left has that primary type. *)
Theorem offered_crime_selects_rows (df : DataFrame) (yr : Z * Z) (c : string) :
  default_year_range df = Some yr → c ∈ crime_types df →
  filtered_df df yr c ≠ [] ∧
  (c ≠ All → Forall (λ r, Primary_Type r = Some c) (filtered_df df yr c)).
Proof.
  unfold default_year_range. intros Hyr Hc.
  destruct (min_year df) as [mn|] eqn:Hmn; [|done].
  destruct (max_year df) as [mx|] eqn:Hmx; [|done].
  injection Hyr as <-.
  apply elem_of_crime_types in Hc as (r & Hr & Hrc).
  apply series_min_le in Hmn. apply series_max_ge in Hmx.
  unfold column in *. rewrite Forall_fmap, Forall_forall in Hmn, Hmx.
  split.
  - intros Hnil.
    assert (r ∈ filtered_df df (mn, mx) c) as Hin.
    { apply elem_of_filtered_df. split; [done|]. split.
      - split; cbn; [by apply Hmn|by apply Hmx].
      - by right. }
    rewrite Hnil in Hin. by apply elem_of_nil in Hin.
  - intros Hne. apply Forall_forall. intros r'.
    rewrite elem_of_filtered_df. intros (_ & _ & [?|?]); done.
Qed.

Lemma offered_crime_selects_rows_witness :
  filtered_df years_table (2018, 2020) "THEFT" ≠ [] ∧
  ("THEFT" ≠ All →
   Forall (λ r, Primary_Type r = Some "THEFT")
     (filtered_df years_table (2018, 2020) "THEFT")).
Proof.
  apply (offered_crime_selects_rows years_table (2018, 2020) "THEFT").
  - reflexivity.
  - apply list_elem_of_In. vm_compute. tauto.
Defined.

(** ** Composing filters *)

(** The filtered table as one filter on the conjunction of the two tests. *)
Lemma filtered_df_pred (df : DataFrame) (yr : Z * Z) (c : string) :
  filtered_df df yr c
  = filter (λ r, in_year_range yr r ∧ crime_matches c r) df.
Proof.
  rewrite filtered_df_filter. unfold crime_matches.
  destruct (decide (c = All)) as [->|Hne].
  - apply list_filter_iff. tauto.
  - rewrite (list_filter_filter (λ r, Primary_Type r = Some c)
               (in_year_range yr)).
    apply list_filter_iff. intros r. split.
    + intros [? ?]. auto.
    + intros [? [?|?]]; [done|auto].
Qed.

Lemma filtered_df_twice (df : DataFrame) (yr1 yr2 : Z * Z) (c1 c2 : string) :
  filtered_df (filtered_df df yr1 c1) yr2 c2
  = filter (λ r, (in_year_range yr2 r ∧ crime_matches c2 r)
                 ∧ (in_year_range yr1 r ∧ crime_matches c1 r)) df.
Proof.
  rewrite (filtered_df_pred (filtered_df df yr1 c1)), (filtered_df_pred df).
  apply (list_filter_filter
           (λ r, in_year_range yr2 r ∧ crime_matches c2 r)
           (λ r, in_year_range yr1 r ∧ crime_matches c1 r)).
Qed.

Lemma filter_none {A : Type} (P : A → Prop) `{!∀ x, Decision (P x)}
    (l : list A) :
  Forall (λ x, ¬ P x) l → filter P l = [].
Proof.
  induction 1 as [|x l Hx _ IH]; [done|]. by rewrite filter_cons_False.
Qed.

(** X4 (filters compose).  Filtering an already filtered table by a second
    filter state gives the same table whichever of the two states is
    applied first, and filtering twice by the same state changes nothing
    further. *)
Theorem filtered_df_compose (df : DataFrame) (yr1 yr2 : Z * Z)
    (c1 c2 : string) :
  filtered_df (filtered_df df yr1 c1) yr2 c2
  = filtered_df (filtered_df df yr2 c2) yr1 c1 ∧
  filtered_df (filtered_df df yr1 c1) yr1 c1 = filtered_df df yr1 c1.
Proof.
  rewrite !filtered_df_twice. split.
  - apply list_filter_iff. tauto.
  - rewrite filtered_df_pred. apply list_filter_iff. tauto.
Qed.

Lemma filter_sublist_impl {A : Type} (P Q : A → Prop)
    `{!∀ x, Decision (P x), !∀ x, Decision (Q x)} (l : list A) :
  (∀ x, P x → Q x) → filter P l `sublist_of` filter Q l.
Proof.
  intros HPQ. induction l as [|x l IH]; [done|].
  rewrite (filter_cons P), (filter_cons Q).
  destruct (decide (P x)) as [HP|HP].
  - rewrite decide_True by auto. by constructor.
  - destruct (decide (Q x)); [by constructor|done].
Qed.

(** X5 (narrowing the filter).  When a year range lies inside another one,
    the table filtered by the inner range, for any crime selection, is a
    subsequence of the table filtered by the outer range for the same
    selection, which is in turn a subsequence of the table filtered by the
    outer range with "All". *)
Theorem filtered_df_narrow (df : DataFrame) (outer inner : Z * Z)
    (c : string) :
  outer.1 ≤ inner.1 → inner.2 ≤ outer.2 →
  filtered_df df inner c `sublist_of` filtered_df df outer c ∧
  filtered_df df outer c `sublist_of` filtered_df df outer All.
Proof.
  intros Hlo Hhi. rewrite !filtered_df_pred. split.
  - apply filter_sublist_impl. unfold in_year_range.
    intros r [[? ?] ?]. split; [lia|done].
  - apply filter_sublist_impl. unfold crime_matches.
    intros r [? _]. split; [done|by left].
Qed.

Lemma filtered_df_narrow_witness :
  filtered_df years_table (2019, 2019) "BATTERY"
    `sublist_of` filtered_df years_table (2018, 2020) "BATTERY" ∧
  filtered_df years_table (2018, 2020) "BATTERY"
    `sublist_of` filtered_df years_table (2018, 2020) All.
Proof.
  apply (filtered_df_narrow years_table (2018, 2020) (2019, 2019) "BATTERY");
    cbn; lia.
Defined.

(** X6 (inverted range).  A year range whose upper end lies below its
    lower end selects no row, whatever the table and the crime
    selection. *)
Theorem filtered_df_inverted_range (df : DataFrame) (yr : Z * Z) (c : string) :
  yr.2 < yr.1 → filtered_df df yr c = [].
Proof.
  intros Hinv. rewrite filtered_df_pred. apply filter_none, Forall_forall.
  intros r _ [[? ?] _]. lia.
Qed.

Lemma filtered_df_inverted_range_witness :
  filtered_df years_table (2020, 2018) All = [].
Proof.
  apply (filtered_df_inverted_range years_table (2020, 2018) All). cbn. lia.
Defined.

(** ** Categories: select box against bar chart *)

Lemma occurrences_cons (c x : string) (s : list string) :
  occurrences c (x :: s)
  = ((if decide (x = c) then 1 else 0) + occurrences c s)%nat.
Proof.
  unfold occurrences. rewrite filter_cons. by destruct (decide (x = c)).
Qed.

Lemma sum_list_with_add {A : Type} (f g : A → nat) (l : list A) :
  sum_list_with (λ a, f a + g a)%nat l
  = (sum_list_with f l + sum_list_with g l)%nat.
Proof. induction l as [|a l IH]; cbn; [done|]. rewrite IH. lia. Qed.

Lemma sum_list_with_ext_in {A : Type} (f g : A → nat) (l : list A) :
  (∀ a, a ∈ l → f a = g a) → sum_list_with f l = sum_list_with g l.
Proof.
  induction l as [|a l IH]; [done|]. intros Hfg. cbn.
  rewrite (Hfg a) by by left. rewrite IH; [done|].
  intros b Hb. apply Hfg. by right.
Qed.

Lemma sum_indicator (x : string) (cats : list string) :
  NoDup cats →
  sum_list_with (λ c, if decide (x = c) then 1 else 0)%nat cats
  = if decide (x ∈ cats) then 1%nat else 0%nat.
Proof.
  induction 1 as [|c cats Hc _ IH]; cbn [sum_list_with].
  - by rewrite decide_False by apply not_elem_of_nil.
  - rewrite IH. destruct (decide (x = c)) as [->|Hne].
    + rewrite decide_False by done. rewrite decide_True by by left. done.
    + destruct (decide (x ∈ cats)) as [Hin|Hout].
      * rewrite decide_True by by right. done.
      * rewrite decide_False; [done|].
        rewrite elem_of_cons. tauto.
Qed.

(** Counting every value of a duplicate-free list of candidates accounts
    for every cell that is one of the candidates. *)
Lemma sum_occurrences (cats s : list string) :
  NoDup cats → Forall (λ x, x ∈ cats) s →
  sum_list_with (λ c, occurrences c s) cats = length s.
Proof.
  intros Hnd. induction 1 as [|x s Hx _ IH].
  - clear Hnd. induction cats as [|c cats IHc]; [done|].
    cbn [sum_list_with]. rewrite IHc. done.
  - rewrite (sum_list_with_ext_in _
               (λ c, (if decide (x = c) then 1 else 0)
                     + occurrences c s)%nat);
      [|intros c _; apply occurrences_cons].
    rewrite sum_list_with_add, IH, sum_indicator by done.
    by rewrite decide_True.
Qed.

Lemma length_notna_types (t : DataFrame) :
  length (notna (column Primary_Type t))
  = length (filter (λ r, is_Some (Primary_Type r)) t).
Proof.
  unfold notna, column. induction t as [|r t IH]; [done|].
  rewrite (filter_cons (λ r0, is_Some (Primary_Type r0))).
  cbn [fmap list_fmap omap list_omap].
  destruct (Primary_Type r) as [c|]; cbn [id].
  - rewrite decide_True by eauto. cbn [length]. f_equal. exact IH.
  - rewrite decide_False by (by intros [? ?]). exact IH.
Qed.

Lemma length_split_missing (t : DataFrame) :
  length t
  = (length (filter (λ r, is_Some (Primary_Type r)) t)
     + length (filter (λ r, Primary_Type r = None) t))%nat.
Proof.
  induction t as [|r t IH]; [done|].
  rewrite (filter_cons (λ r0, is_Some (Primary_Type r0))),
    (filter_cons (λ r0, Primary_Type r0 = None)).
  destruct (Primary_Type r) as [c|].
  - rewrite decide_True by eauto. rewrite decide_False by done.
    cbn [length]. rewrite Nat.add_succ_l. f_equal. exact IH.
  - rewrite decide_False by (by intros [? ?]). rewrite decide_True by done.
    cbn [length]. rewrite Nat.add_succ_r. f_equal. exact IH.
Qed.

Lemma length_filtered_df_crime (df : DataFrame) (yr : Z * Z) (c : string) :
  c ≠ All →
  length (filtered_df df yr c)
  = occurrences c (notna (column Primary_Type (filtered_df df yr All))).
Proof.
  intros Hne. rewrite occurrences_column, !filtered_df_filter.
  rewrite decide_False by done. by rewrite decide_True.
Qed.

(** X7 (selections partition the table).  When no crime type is spelled
    like the "All" entry, the rows selected under "All" are accounted for
    exactly once: their number is the sum, over the crime types the select
    box offers, of the rows selected under that type, plus the rows in
    range that have no primary type. *)
Theorem selections_partition (df : DataFrame) (yr : Z * Z) :
  All ∉ crime_types df →
  length (filtered_df df yr All)
  = (sum_list_with (λ c, length (filtered_df df yr c)) (crime_types df)
     + length (filter (λ r, Primary_Type r = None) (filtered_df df yr All)))%nat.
Proof.
  intros Hall. set (t := filtered_df df yr All).
  rewrite (length_split_missing t). f_equal.
  rewrite <- length_notna_types.
  rewrite (sum_list_with_ext_in _
             (λ c, occurrences c (notna (column Primary_Type t)))
             (crime_types df)).
  - symmetry. apply sum_occurrences.
    + rewrite crime_types_perm. apply NoDup_unique.
    + apply Forall_forall. intros c.
      rewrite elem_of_notna_types, elem_of_crime_types.
      intros (r & Hr & Hc). exists r. split; [|done].
      by apply elem_of_filtered_df in Hr as [? _].
  - intros c Hc. apply length_filtered_df_crime. by intros ->.
Qed.

Lemma selections_partition_witness :
  length (filtered_df years_table (2019, 2020) All)
  = Nat.add
      (sum_list_with (λ c, length (filtered_df years_table (2019, 2020) c))
         (crime_types years_table))
      (length (filter (λ r, Primary_Type r = None)
                 (filtered_df years_table (2019, 2020) All))).
Proof.
  apply (selections_partition years_table (2019, 2020)).
  intros Hin. apply list_elem_of_In in Hin. vm_compute in Hin.
  destruct Hin as [H|[H|[]]]; discriminate H.
Defined.

(** X8 (bar height is the selection's row count).  A bar of the top-crimes
    chart, drawn under "All", shows for its crime type exactly the number
    of rows that selecting this type in the select box leaves, provided
    the type is not spelled like the "All" entry. *)
Theorem top_crimes_count_selected (df : DataFrame) (yr : Z * Z)
    (c : string) (n : nat) :
  (c, n) ∈ top_crimes (filtered_df df yr All) → c ≠ All →
  n = length (filtered_df df yr c).
Proof.
  intros Hin Hne. rewrite length_filtered_df_crime by done.
  unfold top_crimes, head_rows in Hin. apply subseteq_take in Hin.
  by apply elem_of_value_counts in Hin as [_ ->].
Qed.

Lemma top_crimes_count_selected_witness :
  2%nat = length (filtered_df categories_table (2020, 2020) "E").
Proof.
  apply (top_crimes_count_selected categories_table (2020, 2020) "E" 2).
  - apply list_elem_of_In. vm_compute. tauto.
  - discriminate.
Defined.

Lemma sum_list_fmap_with {A : Type} (f : A → nat) (l : list A) :
  sum_list (f <$> l) = sum_list_with f l.
Proof. induction l as [|a l IH]; cbn; [done|]. by rewrite IH. Qed.

Lemma sum_list_take_le (n : nat) (l : list nat) :
  (sum_list (take n l) ≤ sum_list l)%nat.
Proof.
  rewrite <- (take_drop n l) at 2. rewrite sum_list_with_app. lia.
Qed.

Lemma value_counts_total (s : list (option string)) :
  sum_list (value_counts s).*2 = length (notna s).
Proof.
  rewrite value_counts_perm, <- list_fmap_compose, sum_list_fmap_with.
  apply sum_occurrences; [apply NoDup_unique|].
  apply Forall_forall. intros x. by rewrite elem_of_unique.
Qed.

(** X9 (what the bars add up to).  The counts of the top-crimes chart
    never add up to more than the number of rows that have a primary type.
    When the table has at most five crime types, the chart lists exactly
    those types and its counts add up to that number. *)
Theorem top_crimes_total (t : DataFrame) :
  (sum_list (top_crimes t).*2
   ≤ length (filter (λ r, is_Some (Primary_Type r)) t))%nat ∧
  ((length (crime_types t) ≤ 5)%nat →
   (top_crimes t).*1 ≡ₚ crime_types t ∧
   sum_list (top_crimes t).*2
   = length (filter (λ r, is_Some (Primary_Type r)) t)).
Proof.
  rewrite <- length_notna_types, <- value_counts_total.
  unfold top_crimes, head_rows. split.
  - rewrite fmap_take. apply sum_list_take_le.
  - intros Hfew. rewrite take_ge.
    + split; [|done]. by rewrite value_counts_keys, crime_types_perm.
    + rewrite <- (length_fmap fst), value_counts_keys, <- crime_types_perm.
      done.
Qed.

Lemma top_crimes_total_witness :
  (top_crimes years_table).*1 ≡ₚ crime_types years_table ∧
  sum_list (top_crimes years_table).*2
  = length (filter (λ r, is_Some (Primary_Type r)) years_table).
Proof.
  destruct (top_crimes_total years_table) as [_ Hfew].
  apply Hfew. vm_compute. lia.
Defined.

(** ** Yearly counts of a filtered table *)

Lemma rows_of_year_present (y : Z) (s : list Z) :
  y ∈ s → (0 < rows_of_year y s)%nat.
Proof.
  intros Hy. unfold rows_of_year.
  destruct (filter (λ x, x = y) s) as [|x l] eqn:E; cbn; [|lia].
  by destruct (filter_nil_not_elem_of _ _ y E eq_refl).
Qed.

Lemma sublist_filter_mono {A : Type} (P : A → Prop)
    `{!∀ x, Decision (P x)} (l1 l2 : list A) :
  l1 `sublist_of` l2 → filter P l1 `sublist_of` filter P l2.
Proof.
  induction 1 as [|x l1 l2 _ IH|x l1 l2 _ IH]; [done| |].
  - rewrite !filter_cons. destruct (decide (P x)); [by constructor|done].
  - rewrite (filter_cons _ x l2).
    destruct (decide (P x)); [by constructor|done].
Qed.

Lemma strictly_sorted_in_range (lo hi : Z) (l : list Z) :
  StronglySorted Z.lt l → Forall (λ y, lo ≤ y ∧ y ≤ hi) l →
  Z.of_nat (length l) ≤ Z.max 0 (hi - lo + 1).
Proof.
  intros Hsorted. revert lo.
  induction Hsorted as [|a l _ IH Ha]; intros lo Hrange; cbn [length];
    [lia|].
  apply Forall_cons in Hrange as [Hlo Hrange].
  assert (Forall (λ y, a + 1 ≤ y ∧ y ≤ hi) l) as Htail.
  { rewrite Forall_forall in Ha, Hrange |- *. intros y Hy.
    specialize (Ha y Hy). specialize (Hrange y Hy). lia. }
  specialize (IH (a + 1) Htail). lia.
Qed.

Lemma yearly_counts_keys_sorted (t : DataFrame) :
  StronglySorted Z.lt (yearly_counts t).*1.
Proof.
  apply strictly_sorted_keys.
  - apply StronglySorted_merge_sort; apply _.
  - rewrite yearly_counts_perm. apply NoDup_fst_map_to_list.
Qed.

Lemma yearly_counts_entry (t : DataFrame) (y : Z) (n : nat) :
  (y, n) ∈ yearly_counts t →
  n = length (filter (λ r, Year r = y) t) ∧ ∃ r, r ∈ t ∧ Year r = y.
Proof.
  intros [-> Hy]%elem_of_yearly_counts%groupby_size_lookup. split.
  - apply rows_of_year_column.
  - by apply elem_of_year_column.
Qed.

(** X10 (yearly counts of a filtered table).  Every entry of the yearly
    counts of a filtered table has its year inside the selected range and a
    count that is at least one and at most the number of selected rows; a
    year without selected rows has no entry, so the chart has at most one
    point per year of the range. *)
Theorem yearly_counts_in_range (df : DataFrame) (yr : Z * Z) (c : string) :
  (∀ y n, (y, n) ∈ yearly_counts (filtered_df df yr c) →
     yr.1 ≤ y ∧ y ≤ yr.2 ∧
     (0 < n)%nat ∧ (n ≤ length (filtered_df df yr c))%nat) ∧
  Z.of_nat (length (yearly_counts (filtered_df df yr c)))
  ≤ Z.max 0 (yr.2 - yr.1 + 1).
Proof.
  set (t := filtered_df df yr c).
  assert (∀ y n, (y, n) ∈ yearly_counts t → yr.1 ≤ y ∧ y ≤ yr.2) as Hrange.
  { intros y n (_ & r & Hr & <-)%yearly_counts_entry.
    apply elem_of_filtered_df in Hr as (_ & Hyr & _). exact Hyr. }
  split.
  - intros y n Hin. destruct (Hrange y n Hin) as [Hlo Hhi].
    split; [done|]. split; [done|].
    apply yearly_counts_entry in Hin as (-> & r & Hr & <-). split.
    + destruct (filter (λ r0, Year r0 = Year r) t) as [|r' l] eqn:E;
        cbn; [|lia].
      by destruct (filter_nil_not_elem_of _ _ r E eq_refl).
    + apply length_filter.
  - rewrite <- (length_fmap fst).
    apply strictly_sorted_in_range; [apply yearly_counts_keys_sorted|].
    apply Forall_forall. intros y ([y' n] & -> & Hin)%list_elem_of_fmap.
    by apply (Hrange y' n).
Qed.

(** X11 (narrowing lowers every yearly count).  When the year range is
    narrowed and a crime type is selected, every year that still has a
    point in the yearly chart had one before, under the wider range and
    "All", and its count did not grow. *)
Theorem yearly_counts_narrow (df : DataFrame) (outer inner : Z * Z)
    (c : string) (y : Z) (n : nat) :
  outer.1 ≤ inner.1 → inner.2 ≤ outer.2 →
  (y, n) ∈ yearly_counts (filtered_df df inner c) →
  ∃ n', (y, n') ∈ yearly_counts (filtered_df df outer All) ∧ (n ≤ n')%nat.
Proof.
  intros Hlo Hhi Hin.
  assert (filtered_df df inner c `sublist_of` filtered_df df outer All)
    as Hsub.
  { rewrite !filtered_df_pred. apply filter_sublist_impl.
    unfold in_year_range, crime_matches. intros r [[? ?] _].
    split; [lia|by left]. }
  apply yearly_counts_entry in Hin as (-> & r & Hr & <-).
  destruct (proj2 (groupby_size_present
                     (column Year (filtered_df df outer All)) (Year r)))
    as [n' Hn'].
  { apply elem_of_year_column. exists r. split; [|done].
    by eapply elem_of_sublist. }
  exists n'. split; [by apply elem_of_yearly_counts|].
  apply groupby_size_lookup in Hn' as [-> _].
  rewrite rows_of_year_column.
  by apply sublist_length, sublist_filter_mono.
Qed.

Lemma yearly_counts_narrow_witness :
  ∃ n', (2019, n') ∈ yearly_counts (filtered_df years_table (2018, 2020) All)
        ∧ (1 ≤ n')%nat.
Proof.
  apply (yearly_counts_narrow years_table (2018, 2020) (2019, 2019)
           "BATTERY" 2019 1); [cbn; lia|cbn; lia|].
  apply list_elem_of_In. vm_compute. tauto.
Defined.

(** ** Drawing the map sample *)

Lemma take_rows_prefix_perm {A : Type} (df : list A) (locs : list nat)
    (n : nat) :
  locs ≡ₚ seq 0 (length df) → (n ≤ length df)%nat →
  ∃ rows, take_rows df (take n locs) = Some rows
          ∧ length rows = n ∧ rows ⊆+ df.
Proof.
  intros Hperm Hn.
  destruct (mapM_Permutation (λ i, df !! i) _ _ df (symmetry Hperm)
              (take_rows_all df)) as (b & Hb & Hdf).
  exists (take n b). unfold take_rows. rewrite (mapM_take _ n _ b Hb).
  split; [done|]. split.
  - rewrite length_take_le; [done|]. by rewrite <- Hdf.
  - rewrite Hdf. apply sublist_submseteq, sublist_take.
Qed.

Lemma map_df_state (G : Generator) (t : DataFrame) (g : rng G) :
  (map_df G t g).2 = g.
Proof. unfold map_df, sample. repeat case_decide; reflexivity. Qed.

Lemma length_located (t : DataFrame) : (length (located t) ≤ length t)%nat.
Proof.
  unfold located, select_lat_lon. rewrite length_fmap. apply length_filter.
Qed.

Lemma length_map_df (G : Generator) (t : DataFrame) (g : rng G)
    (pts : list GeoRow) :
  (map_df G t g).1 = Some pts →
  (length pts ≤ length (located t) `min` MAP_SAMPLE_SIZE)%nat.
Proof.
  unfold map_df. rewrite dropna_select.
  destruct (decide (MAP_SAMPLE_SIZE < length (located t))%nat) as [Hgt|Hle].
  - unfold sample. rewrite decide_True by lia. cbn.
    intros Hrows%length_mapM. rewrite <- Hrows, length_take. lia.
  - cbn. intros [= <-]. lia.
Qed.

(** X12 (the map sample never draws a row twice).  Running the map step
    leaves the ambient random generator as it was.  Whatever the generator
    does, a map frame that is produced has at most 50,000 points, at most
    as many as there are located rows, and at most as many as the filtered
    table has rows.  With a generator whose [permutation] is one, the frame
    is produced and its points are a sub-multiset of the located rows: no
    located row appears more often than it occurs in the table. *)
Theorem map_df_without_replacement (G : Generator) (t : DataFrame)
    (g : rng G) :
  (map_df G t g).2 = g ∧
  (∀ pts, (map_df G t g).1 = Some pts →
     (length pts ≤ MAP_SAMPLE_SIZE)%nat ∧
     (length pts ≤ length (located t))%nat ∧
     (length pts ≤ length t)%nat) ∧
  (lawful G → ∃ pts, (map_df G t g).1 = Some pts ∧ pts ⊆+ located t).
Proof.
  split; [apply map_df_state|]. split.
  - intros pts Hpts%length_map_df. pose proof (length_located t). lia.
  - intros HG. destruct (map_df_spec G t g HG) as (pts & Hpts & Hsub & _).
    exists pts. by rewrite Hpts.
Qed.

Lemma map_df_without_replacement_witness :
  ∃ pts, (map_df lcg years_table 7).1 = Some pts
         ∧ pts ⊆+ located years_table.
Proof.
  destruct (map_df_without_replacement lcg years_table 7) as (_ & _ & Hdraw).
  apply Hdraw, lcg_lawful.
Defined.

(** X13 (what [sample] returns).  With a generator whose [permutation] is
    one, drawing [n] rows from a frame of at least [n] rows succeeds, with
    or without a seed, and returns exactly [n] rows that form a
    sub-multiset of the frame; drawing as many rows as the frame has
    returns a rearrangement of the frame.  Asking for more rows than the
    frame has fails and leaves the ambient generator as it was. *)
Theorem sample_contract {A : Type} (G : Generator) (n : nat)
    (random_state : option Z) (df : list A) (g : rng G) :
  lawful G →
  if decide (n ≤ length df)%nat then
    ∃ rows, (sample G n random_state df g).1 = Some rows ∧
      length rows = n ∧ rows ⊆+ df ∧ (n = length df → rows ≡ₚ df)
  else sample G n random_state df g = (None, g).
Proof.
  intros HG. unfold sample.
  destruct (decide (n ≤ length df)%nat) as [Hn|Hn]; [|done].
  assert (∃ locs g', (let '(locs, g') :=
            match random_state with
            | Some s => ((permutation G (RandomState G s) (length df)).1, g)
            | None => permutation G g (length df)
            end in (take_rows df (take n locs), g'))
          = (take_rows df (take n locs), g')
          ∧ locs ≡ₚ seq 0 (length df)) as (locs & g' & -> & Hperm).
  { destruct random_state as [s|].
    - eexists _, _. split; [done|]. apply HG.
    - specialize (HG g (length df)).
      destruct (permutation G g (length df)) as [locs g'].
      by exists locs, g'. }
  destruct (take_rows_prefix_perm df locs n Hperm Hn)
    as (rows & Hrows & Hlen & Hsub).
  exists rows. cbn. split; [done|]. split; [done|]. split; [done|].
  intros ->. by apply submseteq_length_Permutation; [|rewrite Hlen].
Qed.

Lemma sample_contract_witness :
  ∃ rows, (sample lcg 2 None [10; 20; 30] 1).1 = Some rows ∧
    length rows = 2%nat ∧ rows ⊆+ [10; 20; 30] ∧
    (2%nat = length [10; 20; 30] → rows ≡ₚ [10; 20; 30]).
Proof. apply (sample_contract lcg 2 None [10; 20; 30] 1 lcg_lawful). Defined.

(** ** One run of the page *)

Lemma app_state (G : Generator) (df : DataFrame) (yr : Z * Z) (c : string)
    (g : rng G) :
  (app G df yr c g).2 = g.
Proof.
  unfold app. destruct (min_year df); [|done]. destruct (max_year df); [|done].
  pose proof (map_df_state G (filtered_df df yr c) g) as Hg.
  destruct (map_df G (filtered_df df yr c) g) as [[pts|] g']; by cbn in *.
Qed.

Lemma app_Some (G : Generator) (df : DataFrame) (yr : Z * Z) (c : string)
    (g : rng G) (page : Page) :
  (app G df yr c g).1 = Some page →
  df ≠ [] ∧
  ∃ pts, (map_df G (filtered_df df yr c) g).1 = Some pts ∧
    page = {| page_filtered := filtered_df df yr c;
              page_selected_rows := length (filtered_df df yr c);
              page_sample_records := head_rows 5 (filtered_df df yr c);
              page_yearly_counts := yearly_counts (filtered_df df yr c);
              page_map := pts;
              page_top_crimes :=
                if bool_decide (c = All)
                then Some (top_crimes (filtered_df df yr c)) else None |}.
Proof.
  unfold app. destruct df as [|r df]; [done|].
  cbn [min_year max_year column fmap list_fmap series_min series_max].
  destruct (map_df G (filtered_df (r :: df) yr c) g) as [[pts|] g'];
    cbn; [|done].
  intros [= <-]. split; [done|]. by exists pts.
Qed.

(** X14 (when a run fails).  A run of the page never advances the ambient
    random generator.  With a generator whose [permutation] is one, the
    run fails exactly when the loaded table has no row; no year range and
    no crime selection makes it fail. *)
Theorem app_fails_only_on_empty_table (G : Generator) (df : DataFrame)
    (year_range : Z * Z) (selected_crime : string) (g : rng G) :
  (app G df year_range selected_crime g).2 = g ∧
  (lawful G →
   (is_Some (app G df year_range selected_crime g).1 ↔ df ≠ [])).
Proof.
  split; [apply app_state|]. intros HG. split.
  - intros [page Hpage]. by apply app_Some in Hpage as [? _].
  - intros Hdf.
    destruct (app_succeeds G df year_range selected_crime g HG Hdf)
      as (pts & _ & ->). by eexists.
Qed.

Lemma app_fails_only_on_empty_table_witness :
  is_Some (app lcg years_table (2020, 2018) "ARSON" 7).1 ↔ years_table ≠ [].
Proof.
  destruct (app_fails_only_on_empty_table lcg years_table (2020, 2018)
              "ARSON" 7) as [_ Hrun].
  apply Hrun, lcg_lawful.
Defined.

(** X15 (the views of one page agree).  On every page a run produces, for
    any generator: the filtered table is a subsequence of the loaded
    table; the "Selected Rows" metric is its length and equals the sum of
    the yearly counts; the sample records are its first five rows, or all
    of them when there are fewer; the map has at most as many points as
    rows are selected; and the top-crimes chart is present exactly when
    "All" is selected. *)
Theorem page_views_agree (G : Generator) (df : DataFrame)
    (year_range : Z * Z) (selected_crime : string) (g : rng G)
    (page : Page) :
  (app G df year_range selected_crime g).1 = Some page →
  page_filtered page `sublist_of` df ∧
  page_selected_rows page = length (page_filtered page) ∧
  page_selected_rows page = sum_list (page_yearly_counts page).*2 ∧
  page_sample_records page `prefix_of` page_filtered page ∧
  length (page_sample_records page) = (5 `min` page_selected_rows page)%nat ∧
  (length (page_map page) ≤ page_selected_rows page)%nat ∧
  (is_Some (page_top_crimes page) ↔ selected_crime = All).
Proof.
  intros (_ & pts & Hpts & ->)%app_Some.
  cbn [page_filtered page_selected_rows page_sample_records
       page_yearly_counts page_map page_top_crimes].
  set (t := filtered_df df year_range selected_crime).
  split; [|split; [|split; [|split; [|split; [|split]]]]].
  - unfold t. rewrite filtered_df_pred. apply sublist_filter.
  - done.
  - rewrite yearly_counts_perm, groupby_size_total.
    unfold column. by rewrite length_fmap.
  - apply prefix_take.
  - unfold head_rows. apply length_take.
  - apply length_map_df in Hpts. pose proof (length_located t) as Hloc.
    subst t. lia.
  - case_bool_decide; split; done.
Qed.

Lemma page_views_agree_witness :
  ∃ page, (app lcg years_table (2019, 2020) All 7).1 = Some page ∧
    page_selected_rows page = sum_list (page_yearly_counts page).*2 ∧
    is_Some (page_top_crimes page).
Proof.
  eexists. split; [vm_compute; reflexivity|].
  match goal with
  | |- context [page_selected_rows ?p] =>
      destruct (page_views_agree lcg years_table (2019, 2020) All 7 p)
        as (_ & _ & Hsum & _ & _ & _ & Htop)
  end; [vm_compute; reflexivity|].
  split; [exact Hsum|]. apply Htop. reflexivity.
Defined.

(** ** Loading the table *)

(** X16 (a loaded file is never fetched again).  When [load_data]
    succeeds, the CSV file exists afterwards, and a file that was already
    there is left untouched.  Loading again from the resulting files
    returns the same table and leaves them as they are, whatever a
    download would do then. *)
Theorem load_data_reload
    (download download' : string → string → Files → Files)
    (read_csv : string → option DataFrame) (fs fs' : Files)
    (df : DataFrame) :
  load_data download read_csv fs = (Some df, fs') →
  is_Some (fs' !! CSV_PATH) ∧
  (is_Some (fs !! CSV_PATH) → fs' = fs) ∧
  load_data download' read_csv fs' = (Some df, fs').
Proof.
  unfold load_data. intros [= Hdf Hfs]. rewrite Hfs in Hdf.
  destruct (fs' !! CSV_PATH) as [content|] eqn:Hfile; [|done].
  cbn in Hdf. split; [by eexists|]. split.
  - intros [c Hc]. rewrite bool_decide_false in Hfs; [done|].
    by rewrite Hc.
  - rewrite bool_decide_false by done. rewrite Hfile. cbn. by rewrite Hdf.
Qed.

Lemma load_data_reload_witness :
  is_Some ((<[CSV_PATH := "Year,Primary Type,Latitude,Longitude"]> ∅ : Files)
             !! CSV_PATH) ∧
  (is_Some ((∅ : Files) !! CSV_PATH) →
   <[CSV_PATH := "Year,Primary Type,Latitude,Longitude"]> ∅ = (∅ : Files)) ∧
  load_data (λ _ _ fs, fs) read_years_table
    (<[CSV_PATH := "Year,Primary Type,Latitude,Longitude"]> ∅)
  = (Some years_table,
     <[CSV_PATH := "Year,Primary Type,Latitude,Longitude"]> ∅).
Proof.
  apply (load_data_reload fetch_csv (λ _ _ fs, fs) read_years_table ∅).
  reflexivity.
Defined.


